(** * Try-on service: request handlers as effect programs

    The repository holds three copies of a small Express service that
    resizes a human image and a garment image and forwards them to a remote
    Gradio model:

    - [App]    : src/app.mjs (port 8080, one fixed model);
    - [Typed]  : the rate-limited server that selects the model from the
                 [type] field (first document of src/unnamed/part_000);
    - [Basic]  : the port-3000 server (second document of part_000).

    Every handler is an [async] function whose only interesting behaviour is
    the sequence of calls it makes to the outside world (the Gradio client,
    axios, sharp, the file system) and the response it finally writes.  The
    handlers are therefore embedded as programs over a signature of external
    calls; an interpreter runs a program against an arbitrary world and
    records the calls that were made.  [console.log] lines are not modelled. *)

From Stdlib Require Import ZArith NArith Ascii String List Lia.
From Stdlib.Strings Require Import Byte.
From stdpp Require Import base option list gmap strings.

Set Warnings "-register-all".

Local Open Scope Z_scope.
Local Open Scope string_scope.
Local Open Scope list_scope.

(** ** JavaScript values *)

Definition bytes := list byte.

(** The values that travel through request bodies, JSON responses and the
    prediction payload.  [JBuffer] is a Node [Buffer]. *)
Inductive jsval : Type :=
| JUndefined
| JNull
| JBool (b : bool)
| JNum (n : Z)
| JStr (s : string)
| JBuffer (b : bytes)
| JArr (l : list jsval)
| JObj (fields : list (string * jsval)).

(** ToBoolean, as used by [!x], [x || y], [c ? a : b] and [if (x)]. *)
Definition truthy (v : jsval) : bool :=
  match v with
  | JUndefined | JNull => false
  | JBool b => b
  | JNum n => negb (Z.eqb n 0)
  | JStr s => negb (String.eqb s EmptyString)
  | JBuffer _ | JArr _ | JObj _ => true
  end.

(** [a || b] *)
Definition js_or (a b : jsval) : jsval := if truthy a then a else b.

(** A destructuring default [{ x = d } = obj]: only [undefined] is replaced. *)
Definition js_default (a d : jsval) : jsval :=
  match a with JUndefined => d | _ => a end.

(** [error.response.data]: a value that [res.json] can serialise, or the
    live response stream that axios attaches when a request made with
    [responseType: "stream"] is refused with an HTTP status. *)
Inductive response_data : Type :=
| Data (v : jsval)
| LiveStream.

(** What a [catch (error)] clause inspects: [error.message], and
    [error.response.data] when [error.response] is set (axios errors). *)
Record error := mkError { err_message : jsval; err_response : option response_data }.

Definition Error (msg : string) : error :=
  {| err_message := JStr msg; err_response := None |}.

(** ** External calls *)

Inductive app_client := AppClient (id : nat).

Record prediction := { data : list jsval }.

Record axios_config := {
  url : jsval;
  responseType : string;
  timeout : option Z   (* milliseconds; [None]: the option is not passed *)
}.

(** One constructor per call a handler makes to a library.  A stream body
    is represented by the bytes it delivers. *)
Inductive call : Type :=
| Client (space : string)
    (* client(space) *)
| Axios (cfg : axios_config)
    (* axios(cfg) / axios.get(url, cfg): the reply is response.data *)
| Pipe (body : bytes) (filepath : string)
    (* response.data.pipe(fs.createWriteStream(filepath)), until the writer
       emits finish (fulfilled) or error (rejected) *)
| SharpToFile (input : option string) (width height : Z) (output : string)
    (* sharp(input).resize(width, height).toFile(output) *)
| SharpToBuffer (input : string) (width height : Z)
    (* sharp(input).resize(width, height).toBuffer() *)
| ReadFile (filePath : string)
    (* fs.readFile(filePath, cb) *)
| WriteFileSync (filePath : string) (content : bytes)
    (* fs.writeFileSync(filePath, content) *)
| Predict (c : app_client) (endpoint : string) (payload : jsval)
    (* appClient.predict(endpoint, payload) *)
| HfImageClassification (model : string) (input : bytes)
| HfSemanticSegmentation (model : string) (input : bytes).

Definition reply_type (c : call) : Type :=
  match c with
  | Client _ => app_client
  | Axios _ => bytes
  | Pipe _ _ => unit
  | SharpToFile _ _ _ _ => unit
  | SharpToBuffer _ _ _ => bytes
  | ReadFile _ => bytes
  | WriteFileSync _ _ => unit
  | Predict _ _ _ => prediction
  | HfImageClassification _ _ => jsval
  | HfSemanticSegmentation _ _ => jsval
  end.

(** A settled promise; a promise that never settles is [None] below. *)
Inductive settled (X : Type) : Type :=
| Fulfilled (x : X)
| Rejected (e : error).
Arguments Fulfilled {X} x.
Arguments Rejected {X} e.

Definition promise (X : Type) : Type := option (settled X).

(** ** Programs *)

Inductive prog (A : Type) : Type :=
| Ret (a : A)
| Throw (e : error)
| Vis (c : call) (k : settled (reply_type c) -> prog A).
Arguments Ret {A} a.
Arguments Throw {A} e.
Arguments Vis {A} c k.

Fixpoint bind {A B} (p : prog A) (f : A -> prog B) : prog B :=
  match p with
  | Ret a => f a
  | Throw e => Throw e
  | Vis c k => Vis c (fun r => bind (k r) f)
  end.

(** [try { p } catch (error) { h error }] *)
Fixpoint try_catch {A} (p : prog A) (h : error -> prog A) : prog A :=
  match p with
  | Ret a => Ret a
  | Throw e => h e
  | Vis c k => Vis c (fun r => try_catch (k r) h)
  end.

(** [await c]: the reply when the promise is fulfilled, a throw when it is
    rejected. *)
Definition await (c : call) : prog (reply_type c) :=
  Vis c (fun r => match r with
                  | Fulfilled x => Ret x
                  | Rejected e => Throw e
                  end).

Notation "x <- p ;; q" := (bind p (fun x => q))
  (at level 20, p at level 99, q at level 200, only parsing).
Notation "p ;;; q" := (bind p (fun _ => q))
  (at level 100, q at level 200, only parsing, right associativity).

(** ** Running a program against a world *)

Inductive reply : Type :=
| RUnit
| RBytes (b : bytes)
| RClient (c : app_client)
| RPrediction (r : prediction)
| RJs (v : jsval).

Definition erase (c : call) : reply_type c -> reply :=
  match c with
  | Client _ => RClient
  | Axios _ => RBytes
  | Pipe _ _ => fun _ => RUnit
  | SharpToFile _ _ _ _ => fun _ => RUnit
  | SharpToBuffer _ _ _ => RBytes
  | ReadFile _ => RBytes
  | WriteFileSync _ _ => fun _ => RUnit
  | Predict _ _ _ => RPrediction
  | HfImageClassification _ _ => RJs
  | HfSemanticSegmentation _ _ => RJs
  end.

(** What happened to a call: it was fulfilled with a reply, rejected, or
    never settled. *)
Inductive result : Type :=
| Done (r : reply)
| Failed (e : error)
| Pending.

Definition history := list (call * result).

(** The world answers every call; the answer may depend on everything that
    happened before. *)
Record World := { oracle : forall c : call, history -> promise (reply_type c) }.

Fixpoint run {A} (w : World) (p : prog A) (h : history) : history * promise A :=
  match p with
  | Ret a => (h, Some (Fulfilled a))
  | Throw e => (h, Some (Rejected e))
  | Vis c k =>
      match oracle w c h with
      | Some (Fulfilled x) => run w (k (Fulfilled x)) (h ++ [(c, Done (erase c x))])
      | Some (Rejected e) => run w (k (Rejected e)) (h ++ [(c, Failed e)])
      | None => (h ++ [(c, Pending)], None)
      end
  end.

Definition trace {A} (w : World) (p : prog A) : history := fst (run w p []).
Definition outcome {A} (w : World) (p : prog A) : promise A := snd (run w p []).

(** A synchronous library call: it returns or throws before the handler
    goes on. *)
Definition perform (c : call) : prog (reply_type c) := await c.

(** ** The platform

    Node built-ins that the handlers use as pure functions. *)
Class Node := {
  __dirname : string;
  (* Buffer.from(x, 'base64'): the bytes, or the message of the TypeError
     thrown for an argument that is no string, buffer or array *)
  Buffer_from_base64 : jsval -> bytes + string;
  (* buffer.toString('base64') *)
  Buffer_toString_base64 : bytes -> string
}.

(** path.join on segments that need no normalisation *)
Definition path_join (segments : list string) : string :=
  String.concat "/" segments.

(** [v.name]: a TypeError on undefined and null, the own property of an
    object, undefined otherwise. *)
Fixpoint lookup_field (name : string) (fields : list (string * jsval)) : jsval :=
  match fields with
  | [] => JUndefined
  | (k, v) :: rest => if String.eqb k name then v else lookup_field name rest
  end.

Definition get_prop (v : jsval) (name : string) : prog jsval :=
  match v with
  | JUndefined =>
      Throw (Error ("Cannot read properties of undefined (reading '" +:+ name +:+ "')"))
  | JNull =>
      Throw (Error ("Cannot read properties of null (reading '" +:+ name +:+ "')"))
  | JObj fields => Ret (lookup_field name fields)
  | _ => Ret JUndefined
  end.

(** [arr[i]] *)
Definition get_index (arr : list jsval) (i : nat) : jsval :=
  default JUndefined (arr !! i).

(** ** Requests and responses *)

(** An entry of [req.files.<field>] (or [req.file]) as multer stores it. *)
Record multer_file := { path : string }.

Record req_files := {
  files_humanImage : option (list multer_file);
  files_garmentImage : option (list multer_file)
}.

(** [req.body]; a field that is absent is [JUndefined]. *)
Record req_body := {
  body_type : jsval;
  humanImageURL : jsval;
  garmentImageURL : jsval;
  garmentDescription : jsval;
  humanImageBase64 : jsval;
  garmentImageBase64 : jsval
}.

Record request := {
  body : req_body;
  files : option req_files;   (* req.files, set by upload.fields *)
  file : option multer_file   (* req.file, set by upload.single *)
}.

Inductive sent_body : Type :=
| NotSent
| Json (j : jsval)      (* res.json(j) *)
| Send (content : bytes). (* res.send(buffer) *)

Record response := {
  status : Z;
  headers : list (string * string);
  sent : sent_body
}.

(** The fresh [res] object of a request. *)
Definition res : response := {| status := 200; headers := []; sent := NotSent |}.

Definition res_status (code : Z) (r : response) : response :=
  {| status := code; headers := headers r; sent := sent r |}.
Definition res_setHeader (name value : string) (r : response) : response :=
  {| status := status r; headers := (name, value) :: headers r; sent := sent r |}.
Definition res_json (j : jsval) (r : response) : response :=
  {| status := status r; headers := headers r; sent := Json j |}.
Definition res_send (content : bytes) (r : response) : response :=
  {| status := status r; headers := headers r; sent := Send content |}.

(** [req.files.<field>[0].path] *)
Definition first_path (l : list multer_file) : prog string :=
  match l !! 0%nat with
  | Some f => Ret (path f)
  | None => Throw (Error "Cannot read properties of undefined (reading 'path')")
  end.

(** [error.response ? error.response.data : error.message] *)
Definition error_payload (e : error) : response_data :=
  match err_response e with
  | Some d => d
  | None => Data (err_message e)
  end.

(** The TypeError that JSON.stringify throws on a cyclic object such as a
    live stream (message abridged). *)
Definition circular_structure : error :=
  Error "Converting circular structure to JSON".

(** [res.json({ error: payload })] in a catch clause: serialising the
    payload throws when it is a live stream, and nothing is sent. *)
Definition report (payload : response_data) (r : response) : prog response :=
  match payload with
  | Data j => Ret (res_json (JObj [("error", j)]) r)
  | LiveStream => Throw circular_structure
  end.

Definition failure_response (j : jsval) : response := {|
  status := 500;
  headers := [];
  sent := Json (JObj [("error", j)])
|}.

(** How a catch clause that reports [payload] ends: a 500 with the payload
    under "error", or the handler's promise rejected by the TypeError. *)
Definition caught (payload : response_data) : promise response :=
  match payload with
  | Data j => Some (Fulfilled (failure_response j))
  | LiveStream => Some (Rejected circular_structure)
  end.

(** The positional argument list of [appClient.predict("/tryon", [...])]. *)
Definition tryon_payload (human garment : bytes) (description : jsval) : jsval :=
  JArr [ JObj [("background", JBuffer human); ("layers", JArr []); ("composite", JNull)];
         JBuffer garment;
         description;
         JBool true;
         JBool true;
         JNum 30;
         JNum 42 ].

Definition default_description : jsval := JStr "cloth fitting the person shape".

(** ** src/app.mjs *)
Module App.

Definition readLocalFile (filePath : string) : prog bytes :=
  await (ReadFile filePath).

Definition downloadImage (u : jsval) (filepath : string) : prog unit :=
  response <- await (Axios {| url := u; responseType := "stream"; timeout := Some 60000 |}) ;;
  await (Pipe response filepath).

Definition resizeImage (inputPath : option string) (outputPath : string)
    (width height : Z) : prog unit :=
  await (SharpToFile inputPath width height outputPath).

Definition bufferToBase64 `{Node} (buffer : bytes) : string :=
  Buffer_toString_base64 buffer.

Definition base64ToBuffer `{Node} (base64 : jsval) : prog bytes :=
  match Buffer_from_base64 base64 with
  | inl b => Ret b
  | inr message => Throw (Error message)
  end.

Definition tryon `{Node} (req : request) : prog response :=
  try_catch
    (appClient <- await (Client "alexff91/FitMirror") ;;
     let humanImageResizedPath := path_join [__dirname; "uploads"; "humanImage_resized.jpg"] in
     let garmentImageResizedPath := path_join [__dirname; "uploads"; "garmentImage_resized.jpg"] in
     humanImagePath <-
       match files req ≫= files_humanImage with
       | Some l => p <- first_path l ;; Ret (Some p)
       | None =>
           if truthy (humanImageURL (body req)) then
             let p := path_join [__dirname; "uploads"; "humanImage.jpg"] in
             downloadImage (humanImageURL (body req)) p ;;; Ret (Some p)
           else Ret None
       end ;;
     garmentImagePath <-
       match files req ≫= files_garmentImage with
       | Some l => p <- first_path l ;; Ret (Some p)
       | None =>
           if truthy (garmentImageURL (body req)) then
             let p := path_join [__dirname; "uploads"; "garmentImage.jpg"] in
             downloadImage (garmentImageURL (body req)) p ;;; Ret (Some p)
           else Ret None
       end ;;
     resizeImage humanImagePath humanImageResizedPath 400 600 ;;;
     resizeImage garmentImagePath garmentImageResizedPath 400 600 ;;;
     humanImageBuffer <- readLocalFile humanImageResizedPath ;;
     garmentImageBuffer <- readLocalFile garmentImageResizedPath ;;
     let description := js_or (garmentDescription (body req)) default_description in
     result <- await (Predict appClient "/tryon"
                        (tryon_payload humanImageBuffer garmentImageBuffer description)) ;;
     Ret (res_json (JObj [("result", JArr (data result))]) res))
    (fun error =>
       report (error_payload error) (res_status 500 res)).

Definition tryon_base64 `{Node} (req : request) : prog response :=
  try_catch
    (appClient <- await (Client "alexff91/FitMirror") ;;
     let humanImageBase64 := humanImageBase64 (body req) in
     let garmentImageBase64 := garmentImageBase64 (body req) in
     let description := js_default (garmentDescription (body req)) default_description in
     if negb (truthy humanImageBase64) || negb (truthy garmentImageBase64) then
       Ret (res_json
              (JObj [("error", JStr "Both humanImageBase64 and garmentImageBase64 are required.")])
              (res_status 400 res))
     else
       humanImageBuffer <- base64ToBuffer humanImageBase64 ;;
       garmentImageBuffer <- base64ToBuffer garmentImageBase64 ;;
       let humanImagePath := path_join [__dirname; "uploads"; "humanImage_from_base64.jpg"] in
       let garmentImagePath := path_join [__dirname; "uploads"; "garmentImage_from_base64.jpg"] in
       perform (WriteFileSync humanImagePath humanImageBuffer) ;;;
       perform (WriteFileSync garmentImagePath garmentImageBuffer) ;;;
       let humanImageResizedPath := path_join [__dirname; "uploads"; "humanImage_resized.jpg"] in
       let garmentImageResizedPath := path_join [__dirname; "uploads"; "garmentImage_resized.jpg"] in
       resizeImage (Some humanImagePath) humanImageResizedPath 400 600 ;;;
       resizeImage (Some garmentImagePath) garmentImageResizedPath 400 600 ;;;
       resizedHumanImageBuffer <- readLocalFile humanImageResizedPath ;;
       resizedGarmentImageBuffer <- readLocalFile garmentImageResizedPath ;;
       result <- await (Predict appClient "/tryon"
                          (tryon_payload resizedHumanImageBuffer resizedGarmentImageBuffer
                             description)) ;;
       outputUrl <- get_prop (get_index (data result) 0) "url" ;;
       outputImageResponse <-
         await (Axios {| url := outputUrl; responseType := "arraybuffer"; timeout := None |}) ;;
       let outputImageBase64 := Buffer_toString_base64 outputImageResponse in
       Ret (res_json (JObj [("result", JStr outputImageBase64)]) res))
    (fun error =>
       report (error_payload error) (res_status 500 res)).

End App.

(** ** The server with model selection (src/unnamed/part_000, first document) *)
Module Typed.

Definition readLocalFile (filePath : string) : prog bytes :=
  await (ReadFile filePath).

Definition downloadImage (u : jsval) (filepath : string) : prog unit :=
  response <- await (Axios {| url := u; responseType := "stream"; timeout := Some 60000 |}) ;;
  await (Pipe response filepath).

Definition resizeImage (inputPath : option string) (outputPath : string)
    (width height : Z) : prog unit :=
  await (SharpToFile inputPath width height outputPath).

Definition bufferToBase64 `{Node} (buffer : bytes) : string :=
  Buffer_toString_base64 buffer.

Definition base64ToBuffer `{Node} (base64 : jsval) : prog bytes :=
  match Buffer_from_base64 base64 with
  | inl b => Ret b
  | inr message => Throw (Error message)
  end.

(** The options handed to express-rate-limit; the middleware itself is a
    dependency and is not part of the sources. *)
Record rate_limit_options := {
  windowMs : Z;
  max : Z;
  message : string
}.

Definition limiter : rate_limit_options := {|
  windowMs := 15 * 60 * 1000;
  max := 100;
  message := "Too many requests from this IP, please try again later."
|}.

Definition invalid_type_message : string :=
  "Invalid type parameter. Allowed values are 'up', 'down', or 'dress'.".

(** The [switch] compares with [===]: only the three strings match. *)
Definition getModelUrlByType (type : jsval) : prog string :=
  match type with
  | JStr s =>
      if String.eqb s "up" then Ret "alexff91/FitMirrorUp"
      else if String.eqb s "down" then Ret "alexff91/FitMirror-Down"
      else if String.eqb s "dress" then Ret "alexff91/FitMirror-Dress"
      else Throw (Error invalid_type_message)
  | _ => Throw (Error invalid_type_message)
  end.

Definition tryon `{Node} (req : request) : prog response :=
  try_catch
    (let type := body_type (body req) in
     modelUrl <- getModelUrlByType type ;;
     appClient <- await (Client modelUrl) ;;
     let humanImageResizedPath := path_join [__dirname; "uploads"; "humanImage_resized.jpg"] in
     let garmentImageResizedPath := path_join [__dirname; "uploads"; "garmentImage_resized.jpg"] in
     humanImagePath <-
       match files req ≫= files_humanImage with
       | Some l => p <- first_path l ;; Ret (Some p)
       | None =>
           if truthy (humanImageURL (body req)) then
             let p := path_join [__dirname; "uploads"; "humanImage.jpg"] in
             downloadImage (humanImageURL (body req)) p ;;; Ret (Some p)
           else Ret None
       end ;;
     garmentImagePath <-
       match files req ≫= files_garmentImage with
       | Some l => p <- first_path l ;; Ret (Some p)
       | None =>
           if truthy (garmentImageURL (body req)) then
             let p := path_join [__dirname; "uploads"; "garmentImage.jpg"] in
             downloadImage (garmentImageURL (body req)) p ;;; Ret (Some p)
           else Ret None
       end ;;
     resizeImage humanImagePath humanImageResizedPath 400 600 ;;;
     resizeImage garmentImagePath garmentImageResizedPath 400 600 ;;;
     humanImageBuffer <- readLocalFile humanImageResizedPath ;;
     garmentImageBuffer <- readLocalFile garmentImageResizedPath ;;
     let description := js_or (garmentDescription (body req)) default_description in
     result <- await (Predict appClient "/tryon"
                        (tryon_payload humanImageBuffer garmentImageBuffer description)) ;;
     Ret (res_json (JObj [("result", JArr (data result))]) res))
    (fun error =>
       report (error_payload error) (res_status 500 res)).

Definition tryon_base64 `{Node} (req : request) : prog response :=
  try_catch
    (let type := body_type (body req) in
     let humanImageBase64 := humanImageBase64 (body req) in
     let garmentImageBase64 := garmentImageBase64 (body req) in
     let description := js_default (garmentDescription (body req)) default_description in
     modelUrl <- getModelUrlByType type ;;
     appClient <- await (Client modelUrl) ;;
     if negb (truthy humanImageBase64) || negb (truthy garmentImageBase64) then
       Ret (res_json
              (JObj [("error", JStr "Both humanImageBase64 and garmentImageBase64 are required.")])
              (res_status 400 res))
     else
       humanImageBuffer <- base64ToBuffer humanImageBase64 ;;
       garmentImageBuffer <- base64ToBuffer garmentImageBase64 ;;
       let humanImagePath := path_join [__dirname; "uploads"; "humanImage_from_base64.jpg"] in
       let garmentImagePath := path_join [__dirname; "uploads"; "garmentImage_from_base64.jpg"] in
       perform (WriteFileSync humanImagePath humanImageBuffer) ;;;
       perform (WriteFileSync garmentImagePath garmentImageBuffer) ;;;
       let humanImageResizedPath := path_join [__dirname; "uploads"; "humanImage_resized.jpg"] in
       let garmentImageResizedPath := path_join [__dirname; "uploads"; "garmentImage_resized.jpg"] in
       resizeImage (Some humanImagePath) humanImageResizedPath 400 600 ;;;
       resizeImage (Some garmentImagePath) garmentImageResizedPath 400 600 ;;;
       resizedHumanImageBuffer <- readLocalFile humanImageResizedPath ;;
       resizedGarmentImageBuffer <- readLocalFile garmentImageResizedPath ;;
       result <- await (Predict appClient "/tryon"
                          (tryon_payload resizedHumanImageBuffer resizedGarmentImageBuffer
                             description)) ;;
       outputUrl <- get_prop (get_index (data result) 0) "url" ;;
       outputImageResponse <-
         await (Axios {| url := outputUrl; responseType := "arraybuffer"; timeout := None |}) ;;
       let outputImageBase64 := Buffer_toString_base64 outputImageResponse in
       Ret (res_json (JObj [("result", JStr outputImageBase64)]) res))
    (fun error =>
       report (error_payload error) (res_status 500 res)).

Definition tryon_media `{Node} (req : request) : prog response :=
  try_catch
    (let type := body_type (body req) in
     modelUrl <- getModelUrlByType type ;;
     appClient <- await (Client modelUrl) ;;
     let humanImageResizedPath := path_join [__dirname; "uploads"; "humanImage_resized.jpg"] in
     let garmentImageResizedPath := path_join [__dirname; "uploads"; "garmentImage_resized.jpg"] in
     humanImagePath <-
       match files req ≫= files_humanImage with
       | Some l => p <- first_path l ;; Ret (Some p)
       | None =>
           if truthy (humanImageURL (body req)) then
             let p := path_join [__dirname; "uploads"; "humanImage.jpg"] in
             downloadImage (humanImageURL (body req)) p ;;; Ret (Some p)
           else Ret None
       end ;;
     garmentImagePath <-
       match files req ≫= files_garmentImage with
       | Some l => p <- first_path l ;; Ret (Some p)
       | None =>
           if truthy (garmentImageURL (body req)) then
             let p := path_join [__dirname; "uploads"; "garmentImage.jpg"] in
             downloadImage (garmentImageURL (body req)) p ;;; Ret (Some p)
           else Ret None
       end ;;
     resizeImage humanImagePath humanImageResizedPath 400 600 ;;;
     resizeImage garmentImagePath garmentImageResizedPath 400 600 ;;;
     humanImageBuffer <- readLocalFile humanImageResizedPath ;;
     garmentImageBuffer <- readLocalFile garmentImageResizedPath ;;
     let description := js_or (garmentDescription (body req)) default_description in
     result <- await (Predict appClient "/tryon"
                        (tryon_payload humanImageBuffer garmentImageBuffer description)) ;;
     outputUrl <- get_prop (get_index (data result) 0) "url" ;;
     outputImageResponse <-
       await (Axios {| url := outputUrl; responseType := "arraybuffer"; timeout := None |}) ;;
     Ret (res_send outputImageResponse (res_setHeader "Content-Type" "image/png" res)))
    (fun error =>
       report (error_payload error) (res_status 500 res)).

Definition tryon_url `{Node} (req : request) : prog response :=
  try_catch
    (let type := body_type (body req) in
     let humanImageURL := humanImageURL (body req) in
     let garmentImageURL := garmentImageURL (body req) in
     let description := js_default (garmentDescription (body req)) default_description in
     modelUrl <- getModelUrlByType type ;;
     appClient <- await (Client modelUrl) ;;
     if negb (truthy humanImageURL) || negb (truthy garmentImageURL) then
       Ret (res_json
              (JObj [("error", JStr "Both humanImageURL and garmentImageURL are required.")])
              (res_status 400 res))
     else
       let humanImagePath := path_join [__dirname; "uploads"; "humanImage_from_url.jpg"] in
       let garmentImagePath := path_join [__dirname; "uploads"; "garmentImage_from_url.jpg"] in
       downloadImage humanImageURL humanImagePath ;;;
       downloadImage garmentImageURL garmentImagePath ;;;
       let humanImageResizedPath := path_join [__dirname; "uploads"; "humanImage_resized.jpg"] in
       let garmentImageResizedPath := path_join [__dirname; "uploads"; "garmentImage_resized.jpg"] in
       resizeImage (Some humanImagePath) humanImageResizedPath 400 600 ;;;
       resizeImage (Some garmentImagePath) garmentImageResizedPath 400 600 ;;;
       resizedHumanImageBuffer <- readLocalFile humanImageResizedPath ;;
       resizedGarmentImageBuffer <- readLocalFile garmentImageResizedPath ;;
       result <- await (Predict appClient "/tryon"
                          (tryon_payload resizedHumanImageBuffer resizedGarmentImageBuffer
                             description)) ;;
       outputUrl <- get_prop (get_index (data result) 0) "url" ;;
       outputImageResponse <-
         await (Axios {| url := outputUrl; responseType := "arraybuffer"; timeout := None |}) ;;
       Ret (res_send outputImageResponse (res_setHeader "Content-Type" "image/png" res)))
    (fun error =>
       report (error_payload error) (res_status 500 res)).

Definition check_wardrobe (req : request) : prog response :=
  try_catch
    (match file req with
     | None =>
         Ret (res_json (JObj [("error", JStr "Garment image is required.")])
                (res_status 400 res))
     | Some f =>
         processedImage <- await (SharpToBuffer (path f) 224 224) ;;
         result <- await (HfImageClassification
                            "microsoft/beit-base-patch16-224-pt22k-ft22k" processedImage) ;;
         Ret (res_json result res)
     end)
    (fun error =>
       Ret (res_json (JObj [("error", err_message error)]) (res_status 500 res))).

Definition check_person (req : request) : prog response :=
  try_catch
    (match file req with
     | None =>
         Ret (res_json (JObj [("error", JStr "Image is required.")]) (res_status 400 res))
     | Some f =>
         processedImage <- await (SharpToBuffer (path f) 512 512) ;;
         result <- await (HfSemanticSegmentation
                            "nvidia/segformer-b0-finetuned-ade-512-512" processedImage) ;;
         Ret (res_json result res)
     end)
    (fun error =>
       Ret (res_json (JObj [("error", err_message error)]) (res_status 500 res))).

End Typed.

(** ** The port-3000 server (src/unnamed/part_000, second document) *)
Module Basic.

Definition readLocalFile (filePath : string) : prog bytes :=
  await (ReadFile filePath).

Definition downloadImage (u : jsval) (filepath : string) : prog unit :=
  response <- await (Axios {| url := u; responseType := "stream"; timeout := None |}) ;;
  await (Pipe response filepath).

Definition resizeImage (inputPath : option string) (outputPath : string)
    (width height : Z) : prog unit :=
  await (SharpToFile inputPath width height outputPath).

Definition tryon `{Node} (req : request) : prog response :=
  try_catch
    (appClient <- await (Client "alexff91/FitMirror") ;;
     let humanImageResizedPath := path_join [__dirname; "uploads"; "humanImage_resized.jpg"] in
     let garmentImageResizedPath := path_join [__dirname; "uploads"; "garmentImage_resized.jpg"] in
     humanImagePath <-
       match files req ≫= files_humanImage with
       | Some l => p <- first_path l ;; Ret (Some p)
       | None =>
           if truthy (humanImageURL (body req)) then
             let p := path_join [__dirname; "uploads"; "humanImage.jpg"] in
             downloadImage (humanImageURL (body req)) p ;;; Ret (Some p)
           else Ret None
       end ;;
     garmentImagePath <-
       match files req ≫= files_garmentImage with
       | Some l => p <- first_path l ;; Ret (Some p)
       | None =>
           if truthy (garmentImageURL (body req)) then
             let p := path_join [__dirname; "uploads"; "garmentImage.jpg"] in
             downloadImage (garmentImageURL (body req)) p ;;; Ret (Some p)
           else Ret None
       end ;;
     resizeImage humanImagePath humanImageResizedPath 400 600 ;;;
     resizeImage garmentImagePath garmentImageResizedPath 400 600 ;;;
     humanImage <- readLocalFile humanImageResizedPath ;;
     garmentImage <- readLocalFile garmentImageResizedPath ;;
     let description := js_or (garmentDescription (body req)) default_description in
     result <- await (Predict appClient "/tryon"
                        (tryon_payload humanImage garmentImage description)) ;;
     Ret (res_json (JObj [("result", JArr (data result))]) res))
    (fun error =>
       Ret (res_json (JObj [("error", err_message error)]) (res_status 500 res))).

End Basic.

(** ** The try-on routes of the three servers *)

Inductive route : Type :=
| AppTryon          (* app.mjs        POST /tryon *)
| AppTryonBase64    (* app.mjs        POST /tryon/base64 *)
| TypedTryon        (* typed server   POST /tryon *)
| TypedTryonBase64  (* typed server   POST /tryon/base64 *)
| TypedTryonMedia   (* typed server   POST /tryon/media *)
| TypedTryonUrl     (* typed server   POST /tryon/url *)
| BasicTryon.       (* port 3000      POST /tryon *)

Definition handler `{Node} (r : route) : request -> prog response :=
  match r with
  | AppTryon => App.tryon
  | AppTryonBase64 => App.tryon_base64
  | TypedTryon => Typed.tryon
  | TypedTryonBase64 => Typed.tryon_base64
  | TypedTryonMedia => Typed.tryon_media
  | TypedTryonUrl => Typed.tryon_url
  | BasicTryon => Basic.tryon
  end.

(** The routes that read [req.body.type]. *)
Definition supports_type (r : route) : bool :=
  match r with
  | TypedTryon | TypedTryonBase64 | TypedTryonMedia | TypedTryonUrl => true
  | _ => false
  end.

(** The routes behind [upload.fields], where a slot can hold a file. *)
Definition multipart (r : route) : bool :=
  match r with
  | AppTryon | TypedTryon | TypedTryonMedia | BasicTryon => true
  | _ => false
  end.

(** ** Observations on a history *)

Definition is_predict (c : call) : bool :=
  match c with Predict _ _ _ => true | _ => false end.

Definition predict_calls (h : history) : list (call * result) :=
  List.filter (fun e => is_predict (fst e)) h.

(** A resized image was read back from the scratch directory. *)
Definition is_read_done (e : call * result) : bool :=
  match e with
  | (ReadFile _, Done _) => true
  | _ => false
  end.

(** A try-on handler reaches its dispatch step once both resized images
    have been read back: [predict] is the statement that follows. *)
Definition reaches_dispatch (h : history) : bool :=
  Nat.eqb (length (List.filter is_read_done h)) 2.

(** The tuple that the remote model expects, item by item: the human image
    object, the garment buffer, the description, the auto-mask flag, the
    auto-crop flag, 30 denoising steps and seed 42. *)
Definition expected_payload (human garment : bytes) (description : jsval) : jsval :=
  JArr [ JObj [("background", JBuffer human); ("layers", JArr []); ("composite", JNull)];
         JBuffer garment;
         description;
         JBool true;
         JBool true;
         JNum 30;
         JNum 42 ].



(** ** A reference platform and a world in which every call succeeds *)

Definition base64_alphabet : string :=
  "ABCDEFGHIJKLMNOPQRSTUVWXYZabcdefghijklmnopqrstuvwxyz0123456789+/".

Definition sextet_char (n : N) : ascii :=
  default "="%char (String.get (N.to_nat n) base64_alphabet).

Fixpoint base64_encode (b : bytes) : string :=
  match b with
  | [] => EmptyString
  | [x] =>
      let n := Byte.to_N x in
      String (sextet_char (n / 4)) (String (sextet_char (n mod 4 * 16)) "==")
  | [x; y] =>
      let n := Byte.to_N x in
      let m := Byte.to_N y in
      String (sextet_char (n / 4))
        (String (sextet_char (n mod 4 * 16 + m / 16))
           (String (sextet_char (m mod 16 * 4)) "="))
  | x :: y :: z :: rest =>
      let n := Byte.to_N x in
      let m := Byte.to_N y in
      let o := Byte.to_N z in
      String (sextet_char (n / 4))
        (String (sextet_char (n mod 4 * 16 + m / 16))
           (String (sextet_char (m mod 16 * 4 + o / 64))
              (String (sextet_char (o mod 64)) (base64_encode rest))))
  end%N.

Fixpoint sextet_index (c : ascii) (alphabet : string) (i : N) : option N :=
  match alphabet with
  | EmptyString => None
  | String a rest => if Ascii.eqb a c then Some i else sextet_index c rest (i + 1)%N
  end.

(** The value of a character in the standard or in the URL-safe alphabet. *)
Definition sextet_of (c : ascii) : option N :=
  if Ascii.eqb c "-"%char then Some 62%N
  else if Ascii.eqb c "_"%char then Some 63%N
  else sextet_index c base64_alphabet 0%N.

(** Decoding stops at the first padding character; characters outside the
    alphabets are skipped. *)
Fixpoint sextets (s : string) : list N :=
  match s with
  | EmptyString => []
  | String c rest =>
      if Ascii.eqb c "="%char then []
      else match sextet_of c with
           | Some n => n :: sextets rest
           | None => sextets rest
           end
  end.

Definition octet (n : N) : byte := default x00 (Byte.of_N n).

Fixpoint octets (l : list N) : bytes :=
  match l with
  | a :: b :: c :: d :: rest =>
      octet (a * 4 + b / 16) :: octet (b mod 16 * 16 + c / 4)
        :: octet (c mod 4 * 64 + d) :: octets rest
  | [a; b; c] => [octet (a * 4 + b / 16); octet (b mod 16 * 16 + c / 4)]
  | [a; b] => [octet (a * 4 + b / 16)]
  | _ => []
  end%N.

(** An array element as a byte: a number modulo 256, anything else 0. *)
Definition array_octet (v : jsval) : byte :=
  match v with
  | JNum n => octet (Z.to_N (n mod 256))
  | _ => x00
  end.

#[export] Instance reference_node : Node := {|
  __dirname := "/srv/try-on";
  Buffer_from_base64 v :=
    match v with
    | JStr s => inl (octets (sextets s))
    | JBuffer b => inl b
    | JArr l => inl (array_octet <$> l)
    | _ => inr "The first argument must be of type string or an instance of Buffer, ArrayBuffer, or Array or an Array-like Object."
    end;
  Buffer_toString_base64 := base64_encode
|}.

Definition png : bytes := [x89; x50; x4e; x47].

Definition sample_prediction : prediction :=
  {| data := [JObj [("url", JStr "https://space.example/file=out.png")]; JNull] |}.

Definition default_reply (c : call) : reply_type c :=
  match c with
  | Client _ => AppClient 0
  | Axios _ => png
  | Pipe _ _ => tt
  | SharpToFile _ _ _ _ => tt
  | SharpToBuffer _ _ _ => png
  | ReadFile _ => png
  | WriteFileSync _ _ => tt
  | Predict _ _ _ => sample_prediction
  | HfImageClassification _ _ => JArr []
  | HfSemanticSegmentation _ _ => JArr []
  end.

(** Every call is fulfilled. *)
Definition obliging : World := {| oracle c _ := Some (Fulfilled (default_reply c)) |}.

Definition empty_body : req_body := {|
  body_type := JUndefined;
  humanImageURL := JUndefined;
  garmentImageURL := JUndefined;
  garmentDescription := JUndefined;
  humanImageBase64 := JUndefined;
  garmentImageBase64 := JUndefined
|}.

(** A multipart request with both images uploaded. *)
Definition upload_request (type : jsval) (description : jsval) : request := {|
  body := {| body_type := type;
             humanImageURL := JUndefined;
             garmentImageURL := JUndefined;
             garmentDescription := description;
             humanImageBase64 := JUndefined;
             garmentImageBase64 := JUndefined |};
  files := Some {| files_humanImage := Some [ {| path := "uploads/3f9a" |} ];
                   files_garmentImage := Some [ {| path := "uploads/7c21" |} ] |};
  file := None
|}.

(** ** Model selection *)

Definition invalid_type_response : response := {|
  status := 500;
  headers := [];
  sent := Json (JObj [("error",
            JStr "Invalid type parameter. Allowed values are 'up', 'down', or 'dress'.")])
|}.

(** ** Missing images *)

(** A request to a multipart route that carries neither files nor URLs. *)
Definition no_image_request : request := {|
  body := {| body_type := JStr "up";
             humanImageURL := JUndefined;
             garmentImageURL := JUndefined;
             garmentDescription := JUndefined;
             humanImageBase64 := JUndefined;
             garmentImageBase64 := JUndefined |};
  files := Some {| files_humanImage := None; files_garmentImage := None |};
  file := None
|}.

Definition status_of (p : promise response) : option Z :=
  match p with
  | Some (Fulfilled resp) => Some (status resp)
  | _ => None
  end.

(** ** Downloading an input image *)

Definition stream_request (u : jsval) (limit : option Z) : call :=
  Axios {| url := u; responseType := "stream"; timeout := limit |}.

(** ** The garment description *)

Definition description_of (c : call) : option jsval :=
  match c with
  | Predict _ _ (JArr (_ :: _ :: d :: _)) => Some d
  | _ => None
  end.

(** The third positional argument of every [predict] call made. *)
Definition descriptions (h : history) : list jsval :=
  omap (fun e => description_of (fst e)) h.

(** A PNG image of one pixel, base64-encoded. *)
Definition pixel_base64 : string :=
  "iVBORw0KGgoAAAANSUhEUgAAAAEAAAABCAYAAAAfFcSJAAAADUlEQVR42mNkYPhfDwAChwGA60e6kgAAAABJRU5ErkJggg==".

Definition base64_request (type description : jsval) : request := {|
  body := {| body_type := type;
             humanImageURL := JUndefined;
             garmentImageURL := JUndefined;
             garmentDescription := description;
             humanImageBase64 := JStr pixel_base64;
             garmentImageBase64 := JStr pixel_base64 |};
  files := None;
  file := None
|}.

(** ** Normalisation targets *)




(** Every [predict] call in the history directly follows two fulfilled
    400 x 600 resizes and the two reads of their output files, and its
    payload holds exactly the two buffers that were read. *)
Fixpoint dispatches_resized (h : history) : Prop :=
  match h with
  | [] => True
  | (SharpToFile _ w1 h1 out1, Done _) :: (SharpToFile _ w2 h2 out2, Done _)
      :: (ReadFile in1, Done (RBytes human)) :: (ReadFile in2, Done (RBytes garment))
      :: (Predict _ _ payload, _) :: rest =>
      (w1, h1) = (400, 600) /\ (w2, h2) = (400, 600)
      /\ in1 = out1 /\ in2 = out2
      /\ (exists description, payload = expected_payload human garment description)
      /\ dispatches_resized rest
  | (Predict _ _ _, _) :: _ => False
  | _ :: rest => dispatches_resized rest
  end.

(** ** Relaying the result *)

(** The secondary fetch: [axios.get(outputUrl, { responseType: 'arraybuffer' })]. *)
Definition result_request (outputUrl : jsval) : call :=
  Axios {| url := outputUrl; responseType := "arraybuffer"; timeout := None |}.

(** The URLs fetched as array buffers, in order. *)
Definition result_fetches (h : history) : list jsval :=
  omap (fun e => match fst e with
                 | Axios cfg =>
                     if String.eqb (responseType cfg) "arraybuffer"
                     then Some (url cfg) else None
                 | _ => None
                 end) h.

(** The routes that resolve the result URL themselves. *)
Definition relays (r : route) : bool :=
  match r with
  | AppTryonBase64 | TypedTryonBase64 | TypedTryonMedia | TypedTryonUrl => true
  | _ => false
  end.

(** The response expected for the fetched bytes: the base64 envelope on
    /tryon/base64, the bytes themselves as image/png on /tryon/media and
    /tryon/url. *)
Definition relayed `{Node} (r : route) (content : bytes) : option response :=
  match r with
  | AppTryonBase64 | TypedTryonBase64 =>
      Some {| status := 200;
              headers := [];
              sent := Json (JObj [("result", JStr (Buffer_toString_base64 content))]) |}
  | TypedTryonMedia | TypedTryonUrl =>
      Some {| status := 200;
              headers := [("Content-Type", "image/png")];
              sent := Send content |}
  | _ => None
  end.

(** A world in which the result URL cannot be fetched. *)
Definition unreachable_result : World := {|
  oracle c _ :=
    match c return promise (reply_type c) with
    | Axios cfg =>
        if String.eqb (responseType cfg) "arraybuffer"
        then Some (Rejected (Error "connect ECONNREFUSED"))
        else Some (Fulfilled png)
    | c => Some (Fulfilled (default_reply c))
    end
|}.

(** ** Source selection on the multipart routes *)







(** The URLs requested as streams, in order. *)
Definition downloads (h : history) : list jsval :=
  omap (fun e => match fst e with
                 | Axios cfg =>
                     if String.eqb (responseType cfg) "stream" then Some (url cfg) else None
                 | _ => None
                 end) h.




(** The inputs of the resize calls, in order. *)
Definition resize_inputs (h : history) : list (option string) :=
  omap (fun e => match fst e with
                 | SharpToFile input _ _ _ => Some input
                 | _ => None
                 end) h.

(** A request whose human slot has both a file and a URL, and whose
    garment slot has only a URL. *)
Definition both_sources_request : request := {|
  body := {| body_type := JStr "up";
             humanImageURL := JStr "https://img.example/human.jpg";
             garmentImageURL := JStr "https://img.example/garment.jpg";
             garmentDescription := JUndefined;
             humanImageBase64 := JUndefined;
             garmentImageBase64 := JUndefined |};
  files := Some {| files_humanImage := Some [ {| path := "uploads/3f9a" |} ];
                   files_garmentImage := None |};
  file := None
|}.

(** ** Two requests at once

    Handlers of different requests are interleaved at their calls.  The
    scratch directory is the one piece of state they share: a machine keeps
    the disk, the remaining program of every request in flight, and the
    calls performed so far. *)

Record machine := {
  disk : gmap string bytes;
  threads : list (prog response);
  performed : list (nat * call)
}.

Section Interleaving.

(** What sharp writes for an image, what the remote model answers, and
    what a URL serves. *)
Variable sharp_resize : Z -> Z -> bytes -> bytes.
Variable model : jsval -> prediction.
Variable web : jsval -> option bytes.

(** The effect of one call on the disk, and its answer. *)
Definition exec (c : call) (d : gmap string bytes)
    : promise (reply_type c) * gmap string bytes :=
  match c return promise (reply_type c) * gmap string bytes with
  | Client _ => (Some (Fulfilled (AppClient 0)), d)
  | Axios cfg =>
      match web (url cfg) with
      | Some content => (Some (Fulfilled content), d)
      | None => (Some (Rejected (Error "Request failed")), d)
      end
  | Pipe content filepath => (Some (Fulfilled tt), <[filepath := content]> d)
  | SharpToFile (Some input) width height output =>
      match d !! input with
      | Some image => (Some (Fulfilled tt), <[output := sharp_resize width height image]> d)
      | None => (Some (Rejected (Error "Input file is missing")), d)
      end
  | SharpToFile None _ _ _ => (Some (Rejected (Error "Invalid input")), d)
  | SharpToBuffer input width height =>
      match d !! input with
      | Some image => (Some (Fulfilled (sharp_resize width height image)), d)
      | None => (Some (Rejected (Error "Input file is missing")), d)
      end
  | ReadFile filePath =>
      match d !! filePath with
      | Some content => (Some (Fulfilled content), d)
      | None => (Some (Rejected (Error "ENOENT: no such file or directory")), d)
      end
  | WriteFileSync filePath content => (Some (Fulfilled tt), <[filePath := content]> d)
  | Predict _ _ payload => (Some (Fulfilled (model payload)), d)
  | HfImageClassification _ _ => (Some (Fulfilled (JArr [])), d)
  | HfSemanticSegmentation _ _ => (Some (Fulfilled (JArr [])), d)
  end.

(** Request [i] performs its next call. *)
Definition step (i : nat) (m : machine) : machine :=
  match threads m !! i with
  | Some (Vis c k) =>
      match exec c (disk m) with
      | (Some answer, d) =>
          {| disk := d;
             threads := <[i := k answer]> (threads m);
             performed := performed m ++ [(i, c)] |}
      | (None, _) => m
      end
  | _ => m
  end.

Definition schedule (order : list nat) (m : machine) : machine :=
  foldl (fun m i => step i m) m order.

(** What a [predict] on a pair of images answers, relayed as JSON. *)
Definition answer_for (human garment : bytes) : response :=
  res_json
    (JObj [("result",
            JArr (data (model (tryon_payload (sharp_resize 400 600 human)
                                 (sharp_resize 400 600 garment)
                                 default_description))))])
    res.

End Interleaving.

(** Two uploads in flight; multer has stored each file under its own name. *)
Definition request0 : request := {|
  body := empty_body;
  files := Some {| files_humanImage := Some [ {| path := "uploads/0a1f" |} ];
                   files_garmentImage := Some [ {| path := "uploads/0b2e" |} ] |};
  file := None
|}.

Definition request1 : request := {|
  body := empty_body;
  files := Some {| files_humanImage := Some [ {| path := "uploads/1c3d" |} ];
                   files_garmentImage := Some [ {| path := "uploads/1d4c" |} ] |};
  file := None
|}.

Definition two_uploads (human0 garment0 human1 garment1 : bytes) : machine := {|
  disk := <["uploads/0a1f" := human0]> (<["uploads/0b2e" := garment0]>
          (<["uploads/1c3d" := human1]> (<["uploads/1d4c" := garment1]> ∅)));
  threads := [App.tryon request0; App.tryon request1];
  performed := []
|}.

(** ** All endpoints *)

Inductive endpoint : Type :=
| TryOn (r : route)
| CheckWardrobe   (* typed server   POST /check-wardrobe *)
| CheckPerson.    (* typed server   POST /check-person *)

Definition serve `{Node} (ep : endpoint) : request -> prog response :=
  match ep with
  | TryOn r => handler r
  | CheckWardrobe => Typed.check_wardrobe
  | CheckPerson => Typed.check_person
  end.

(** What the [catch] clause of an endpoint puts under "error": app.mjs and
    the try-on routes of the typed server prefer [error.response.data], the
    port-3000 server and the two check routes always use [error.message]. *)
Definition reported `{Node} (ep : endpoint) (e : error) : response_data :=
  match ep with
  | TryOn BasicTryon | CheckWardrobe | CheckPerson => Data (err_message e)
  | TryOn _ => error_payload e
  end.

Definition bad_request (message : string) : response := {|
  status := 400;
  headers := [];
  sent := Json (JObj [("error", JStr message)])
|}.

(** ** The model connection *)

(** The spaces a history connected to, in order. *)
Definition client_calls (h : history) : list string :=
  omap (fun e => match fst e with
                 | Client space => Some space
                 | _ => None
                 end) h.

(** The client handle obtained by the first call of a history. *)
Definition connected_client (h : history) : option app_client :=
  match h with
  | (Client _, Done (RClient c)) :: _ => Some c
  | _ => None
  end.

Definition uses_connected_client (h : history) (e : call * result) : Prop :=
  match fst e with
  | Predict c _ _ => connected_client h = Some c
  | _ => True
  end.

(** The space a route connects to: chosen by [type] on the typed server,
    fixed on the other two. *)
Definition model_of (r : route) (type : jsval) : prog string :=
  if supports_type r then Typed.getModelUrlByType type else Ret "alexff91/FitMirror".

(** The routes that answer with the raw result structure. *)
Definition inline (r : route) : bool :=
  match r with
  | AppTryon | TypedTryon | BasicTryon => true
  | _ => false
  end.

(** ** The JSON routes *)

(** The files written synchronously, in order. *)
Definition writes (h : history) : list (string * bytes) :=
  omap (fun e => match fst e with
                 | WriteFileSync filePath content => Some (filePath, content)
                 | _ => None
                 end) h.


(** The guard of an endpoint on its inputs: the two base64 strings, the two
    URLs, or the uploaded file; the multipart try-on routes have none. *)
Definition required_inputs_present (ep : endpoint) (req : request) : bool :=
  match ep with
  | TryOn AppTryonBase64 | TryOn TypedTryonBase64 =>
      truthy (humanImageBase64 (body req)) && truthy (garmentImageBase64 (body req))
  | TryOn TypedTryonUrl =>
      truthy (humanImageURL (body req)) && truthy (garmentImageURL (body req))
  | TryOn _ => true
  | CheckWardrobe | CheckPerson =>
      match file req with
      | Some _ => true
      | None => false
      end
  end.

Definition is_base64_route (r : route) : bool :=
  match r with
  | AppTryonBase64 | TypedTryonBase64 => true
  | _ => false
  end.


(** ** Further sample requests and worlds *)

(** A world in which the model space cannot be reached. *)
Definition no_model_space : World := {|
  oracle c _ :=
    match c return promise (reply_type c) with
    | Client _ =>
        Some (Rejected {| err_message := JStr "Space metadata could not be loaded.";
                          err_response := Some (Data (JObj [("detail", JStr "Not Found")])) |})
    | c => Some (Fulfilled (default_reply c))
    end
|}.

(** A world in which every image download is refused with an HTTP status:
    axios rejects with the response attached, its body being the stream. *)
Definition refusing_downloads : World := {|
  oracle c _ :=
    match c return promise (reply_type c) with
    | Axios cfg =>
        if String.eqb (responseType cfg) "stream"
        then Some (Rejected {| err_message := JStr "Request failed with status code 404";
                               err_response := Some LiveStream |})
        else Some (Fulfilled png)
    | c => Some (Fulfilled (default_reply c))
    end
|}.

(** A JSON request with both URLs. *)
Definition url_request (type : jsval) : request := {|
  body := {| body_type := type;
             humanImageURL := JStr "https://img.example/human.jpg";
             garmentImageURL := JStr "https://img.example/garment.jpg";
             garmentDescription := JUndefined;
             humanImageBase64 := JUndefined;
             garmentImageBase64 := JUndefined |};
  files := None;
  file := None
|}.

(** A multipart request with both uploads stored under the given names. *)
Definition upload_of (humanPath garmentPath : string) : request := {|
  body := empty_body;
  files := Some {| files_humanImage := Some [ {| path := humanPath |} ];
                   files_garmentImage := Some [ {| path := garmentPath |} ] |};
  file := None
|}.

(** * Properties *)

(** ** Stepping through a handler *)

Lemma run_vis_cases {A} (w : World) (c : call) (k : settled (reply_type c) -> prog A)
    (h : history) (Q : history * promise A -> Prop) :
  (forall x, Q (run w (k (Fulfilled x)) (h ++ [(c, Done (erase c x))]))) ->
  (forall e, Q (run w (k (Rejected e)) (h ++ [(c, Failed e)]))) ->
  Q (h ++ [(c, Pending)], None) ->
  Q (run w (Vis c k) h).
Proof.
  intros Hdone Hfailed Hpending. simpl.
  destruct (oracle w c h) as [[x|e]|]; auto.
Qed.

Arguments run {A} w !p h : simpl nomatch.
Arguments path_join : simpl never.
Arguments tryon_payload : simpl never.
Arguments res_json : simpl never.
Arguments res_send : simpl never.
Arguments res_status : simpl never.
Arguments js_or : simpl never.
Arguments js_default : simpl never.
Arguments error_payload : simpl never.
Arguments caught : simpl never.

(** The catch clause makes no call. *)
Lemma run_report (w : World) (payload : response_data) (h : history) :
  run w (report payload (res_status 500 res)) h = (h, caught payload).
Proof. destruct payload; reflexivity. Qed.

(** One call of the handler: the three answers of the world. *)
Ltac ask_world :=
  try match goal with
      | |- context [run _ (await ?c) _] => unfold await at 1
      end;
  match goal with
  | |- context [@run ?A ?w (@Vis ?B ?c ?k) ?h] =>
      pattern (@run A w (@Vis B c k) h);
      lazymatch goal with
      | |- ?Q _ => refine (run_vis_cases w c k h Q _ _ _)
      end;
      [intros ? | intros ? | ]; simpl
  end.

Lemma getModelUrlByType_cases (type : jsval) :
  (exists modelUrl, Typed.getModelUrlByType type = Ret modelUrl)
  \/ Typed.getModelUrlByType type = Throw (Error Typed.invalid_type_message).
Proof.
  unfold Typed.getModelUrlByType.
  destruct type; auto.
  repeat match goal with
         | |- context [if ?b then _ else _] => destruct b; eauto
         end.
Qed.

Lemma get_prop_cases (v : jsval) (name : string) :
  (exists x, get_prop v name = Ret x)
  \/ (exists message, get_prop v name = Throw (Error message)).
Proof. destruct v; simpl; eauto. Qed.

(** An error thrown by the handler's own code carries no response. *)
Lemma error_payload_Error (message : string) :
  error_payload (Error message) = Data (JStr message).
Proof. reflexivity. Qed.

(** The statement the program is about to execute. *)
Ltac next_statement p :=
  lazymatch p with
  | try_catch ?q _ => next_statement q
  | bind ?q _ => next_statement q
  | _ => p
  end.

(** One branch of the handler on the request or on a value it computed. *)
Ltac branch :=
  match goal with
  | |- context [run ?w ?p ?h] =>
      let q := next_statement p in
      lazymatch q with
      | first_path ?l => destruct l
      | get_prop ?v ?n =>
          let E := fresh "Hprop" in
          destruct (get_prop_cases v n) as [[? E] | [? E]]; rewrite E
      | Typed.getModelUrlByType ?t =>
          let E := fresh "Hmodel" in
          destruct (getModelUrlByType_cases t) as [[? E] | E]; rewrite E
      | App.base64ToBuffer ?v =>
          unfold App.base64ToBuffer; destruct (Buffer_from_base64 v) eqn:?
      | Typed.base64ToBuffer ?v =>
          unfold Typed.base64ToBuffer; destruct (Buffer_from_base64 v) eqn:?
      | report ?payload _ => rewrite run_report, ?error_payload_Error
      | match ?x with _ => _ end => destruct x eqn:?
      end; simpl
  end.

Ltac walk := repeat first [ask_world | branch].

(** Locate an entry in a history that has been walked through. *)
Ltac find_predict H :=
  simpl in H;
  repeat (destruct H as [H | H]; [try discriminate H |]);
  try contradiction.

(** ** Dispatch *)



(** A rejected [predict] is the last call of the handler and goes straight
    to the catch clause: the failure surfaces at once. *)
Lemma failed_predict_is_final `{Node} (w : World) (r : route) (req : request)
    (c : app_client) (endpoint : string) (payload : jsval) (e : error) :
  In (Predict c endpoint payload, Failed e) (trace w (handler r req)) ->
  last (trace w (handler r req)) = Some (Predict c endpoint payload, Failed e)
  /\ outcome w (handler r req) = caught (reported (TryOn r) e).
Proof.
  unfold trace, outcome.
  destruct r; simpl;
    unfold App.tryon, App.tryon_base64, Typed.tryon, Typed.tryon_base64,
      Typed.tryon_media, Typed.tryon_url, Basic.tryon; simpl.
  all: walk.
  all: intros Hin; find_predict Hin.
  all: injection Hin as <- <- <- <-; split; reflexivity.
Qed.
(** ** Model selection *)

Lemma getModelUrlByType_invalid (type : jsval) :
  type <> JStr "up" -> type <> JStr "down" -> type <> JStr "dress" ->
  Typed.getModelUrlByType type = Throw (Error Typed.invalid_type_message).
Proof.
  intros Hup Hdown Hdress. unfold Typed.getModelUrlByType.
  destruct type as [| | | |s| | |]; try reflexivity.
  destruct (String.eqb s "up") eqn:E1.
  { apply String.eqb_eq in E1. congruence. }
  destruct (String.eqb s "down") eqn:E2.
  { apply String.eqb_eq in E2. congruence. }
  destruct (String.eqb s "dress") eqn:E3.
  { apply String.eqb_eq in E3. congruence. }
  reflexivity.
Qed.

(** C2. On the four routes that read [type], a value that is absent or is
    none of 'up', 'down', 'dress' makes the handler throw before it makes
    any call (no client connection, no download, no resize, no predict):
    the history is empty and the response is 500 with the JSON error. *)
Theorem invalid_type_rejected_first `{Node} (w : World) (r : route) (req : request) :
  supports_type r = true ->
  body_type (body req) <> JStr "up" ->
  body_type (body req) <> JStr "down" ->
  body_type (body req) <> JStr "dress" ->
  run w (handler r req) [] = ([], Some (Fulfilled invalid_type_response)).
Proof.
  intros Hr Hup Hdown Hdress.
  pose proof (getModelUrlByType_invalid _ Hup Hdown Hdress) as Hthrow.
  destruct r; try discriminate Hr; simpl;
    unfold Typed.tryon, Typed.tryon_base64, Typed.tryon_media, Typed.tryon_url;
    simpl; rewrite Hthrow; reflexivity.
Qed.

Lemma invalid_type_rejected_first_witness :
  run obliging (handler TypedTryonMedia (upload_request (JStr "hat") JUndefined)) []
  = ([], Some (Fulfilled invalid_type_response)).
Proof.
  apply (invalid_type_rejected_first obliging TypedTryonMedia
           (upload_request (JStr "hat") JUndefined));
    [reflexivity | discriminate | discriminate | discriminate].
Defined.

(** ** Missing images *)

(** The JSON routes do check: once the client is connected, a request
    without one of its two inputs is answered 400 and nothing else is
    called. *)
Lemma json_routes_reject_missing_input `{Node} (w : World) (r : route) (req : request) :
  match r with
  | AppTryonBase64 | TypedTryonBase64 =>
      truthy (humanImageBase64 (body req)) && truthy (garmentImageBase64 (body req))
  | TypedTryonUrl =>
      truthy (humanImageURL (body req)) && truthy (garmentImageURL (body req))
  | _ => true
  end = false ->
  match trace w (handler r req) with
  | [] => supports_type r = true
  | [(Client _, Done _)] =>
      exists message,
        outcome w (handler r req)
        = Some (Fulfilled {| status := 400; headers := [];
                             sent := Json (JObj [("error", JStr message)]) |})
  | [(Client _, _)] => True
  | _ => False
  end.
Proof.
  unfold trace, outcome. intros Hmissing.
  destruct r; try discriminate Hmissing; simpl;
    unfold App.tryon_base64, Typed.tryon_base64, Typed.tryon_url; simpl.
  all: apply andb_false_iff in Hmissing.
  all: assert (Hguard : forall a b, (a = false \/ b = false) -> negb a || negb b = true)
         by (intros [] []; simpl; intuition congruence).
  all: rewrite (Hguard _ _ Hmissing).
  all: walk; eauto.
Qed.

(** C3 (what the multipart handlers do instead).  When a slot of POST
    /tryon or /tryon/media has neither a file nor a URL, no path answers
    400: the handler goes on to [resizeImage(undefined, ...)] and can only
    answer 200 or 500 (or never answer).  For [no_image_request] the call
    that follows the client connection is the resize of [undefined]. *)
Theorem missing_image_not_rejected `{Node} (w : World) (r : route) (req : request) :
  multipart r = true ->
  files req ≫= files_humanImage = None ->
  truthy (humanImageURL (body req)) = false ->
  status_of (outcome w (handler r req)) <> Some 400
  /\ match trace w (handler r no_image_request) !! 1%nat with
     | Some e =>
         fst e = SharpToFile None 400 600
                   (path_join [__dirname; "uploads"; "humanImage_resized.jpg"])
     | None => True
     end.
Proof.
  intros Hr Hfile Hurl. unfold trace, outcome.
  destruct r; try discriminate Hr; simpl;
    unfold App.tryon, Typed.tryon, Typed.tryon_media, Basic.tryon; simpl;
    rewrite Hfile, Hurl; simpl.
  all: split;
         [ walk; simpl;
           try match goal with
               | |- context [caught ?p] => unfold caught; destruct p
               end;
           discriminate
         | ].
  all: repeat first [ask_world | reflexivity | exact I | branch].
Qed.

Lemma missing_image_not_rejected_witness :
  status_of (outcome obliging (handler AppTryon no_image_request)) = Some 200
  /\ status_of (outcome obliging (handler AppTryon no_image_request)) <> Some 400
  /\ trace obliging (handler AppTryon no_image_request) !! 1%nat
     = Some (SharpToFile None 400 600 "/srv/try-on/uploads/humanImage_resized.jpg",
             Done RUnit).
Proof.
  split; [reflexivity |].
  split; [| reflexivity].
  apply (missing_image_not_rejected obliging AppTryon no_image_request); reflexivity.
Defined.

(** ** Normalisation targets *)



Example dispatches_resized_rejects :
  ~ dispatches_resized
      [(SharpToFile (Some "a") 400 600 "x", Done RUnit);
       (ReadFile "x", Done (RBytes png));
       (Predict (AppClient 0) "/tryon" (tryon_payload png png JNull), Pending)].
Proof. simpl. tauto. Qed.
(** ** Relaying the result *)

(** C5. On the relaying routes, once [predict] has been fulfilled with a
    result whose [data[0].url] is [outputUrl], the handler makes exactly
    one more call, the fetch of [outputUrl], and it is the only such fetch
    of the request.  Fetched bytes are answered as the base64 envelope
    (resp. as image/png bytes); a rejected fetch goes to the catch clause,
    which answers 500 with the JSON error: the fetch is not repeated and
    nothing is substituted. *)
Theorem result_relayed `{Node} (w : World) (r : route) (req : request)
    (c : app_client) (endpoint : string) (payload : jsval)
    (result : prediction) (outputUrl : jsval) :
  relays r = true ->
  In (Predict c endpoint payload, Done (RPrediction result)) (trace w (handler r req)) ->
  get_prop (get_index (data result) 0) "url" = Ret outputUrl ->
  exists prefix fetched,
    trace w (handler r req)
    = prefix ++ [(Predict c endpoint payload, Done (RPrediction result));
                 (result_request outputUrl, fetched)]
    /\ result_fetches prefix = []
    /\ outcome w (handler r req) =
       match fetched with
       | Done (RBytes content) => Fulfilled <$> relayed r content
       | Done _ => None
       | Failed e => caught (error_payload e)
       | Pending => None
       end.
Proof.
  unfold trace, outcome. intros Hr.
  destruct r; try discriminate Hr; clear Hr; simpl;
    unfold App.tryon_base64, Typed.tryon_base64, Typed.tryon_media, Typed.tryon_url;
    simpl.
  all: walk.
  all: intros Hin Hurl; find_predict Hin.
  all: injection Hin as <- <- <- <-.
  all: try congruence.
  all: match goal with
       | Hp : get_prop ?v ?n = Ret ?a, Hu : get_prop ?v ?n = Ret ?b |- _ =>
           assert (a = b) as -> by congruence
       end.
  all: match goal with
       | |- exists prefix fetched, ?tr = _ /\ _ =>
           exists (take (length tr - 2) tr)
       end.
  all: eexists; simpl; repeat split; reflexivity.
Qed.

Lemma result_relayed_witness :
  In (Predict (AppClient 0) "/tryon" (tryon_payload png png default_description),
      Done (RPrediction sample_prediction))
    (trace unreachable_result (handler TypedTryonMedia (upload_request (JStr "up") JUndefined)))
  /\ exists prefix fetched,
      trace unreachable_result
        (handler TypedTryonMedia (upload_request (JStr "up") JUndefined))
      = prefix ++ [(Predict (AppClient 0) "/tryon"
                      (tryon_payload png png default_description),
                    Done (RPrediction sample_prediction));
                   (result_request (JStr "https://space.example/file=out.png"), fetched)]
      /\ result_fetches prefix = []
      /\ outcome unreachable_result
           (handler TypedTryonMedia (upload_request (JStr "up") JUndefined))
         = match fetched with
           | Done (RBytes content) => Fulfilled <$> relayed TypedTryonMedia content
           | Done _ => None
           | Failed e => caught (error_payload e)
           | Pending => None
           end.
Proof.
  split.
  - simpl. do 5 right. left. reflexivity.
  - apply (result_relayed unreachable_result TypedTryonMedia
             (upload_request (JStr "up") JUndefined)
             (AppClient 0) "/tryon" (tryon_payload png png default_description)
             sample_prediction (JStr "https://space.example/file=out.png")).
    + reflexivity.
    + simpl. do 5 right. left. reflexivity.
    + reflexivity.
Defined.

Example base64_relay_success :
  outcome obliging (handler TypedTryonBase64 (base64_request (JStr "dress") JUndefined))
  = Some (Fulfilled {| status := 200; headers := [];
                       sent := Json (JObj [("result", JStr "iVBORw==")]) |}).
Proof. reflexivity. Qed.

Example media_relay_failure :
  trace unreachable_result (handler TypedTryonMedia (upload_request (JStr "up") JUndefined))
  = [(Client "alexff91/FitMirrorUp", Done (RClient (AppClient 0)));
     (SharpToFile (Some "uploads/3f9a") 400 600 "/srv/try-on/uploads/humanImage_resized.jpg",
      Done RUnit);
     (SharpToFile (Some "uploads/7c21") 400 600 "/srv/try-on/uploads/garmentImage_resized.jpg",
      Done RUnit);
     (ReadFile "/srv/try-on/uploads/humanImage_resized.jpg", Done (RBytes png));
     (ReadFile "/srv/try-on/uploads/garmentImage_resized.jpg", Done (RBytes png));
     (Predict (AppClient 0) "/tryon" (expected_payload png png default_description),
      Done (RPrediction sample_prediction));
     (result_request (JStr "https://space.example/file=out.png"),
      Failed (Error "connect ECONNREFUSED"))]
  /\ outcome unreachable_result
       (handler TypedTryonMedia (upload_request (JStr "up") JUndefined))
     = Some (Fulfilled {| status := 500; headers := [];
                          sent := Json (JObj [("error", JStr "connect ECONNREFUSED")]) |}).
Proof. split; reflexivity. Qed.
(** ** Downloading an input image *)

(** In app.mjs and in the typed server, [downloadImage] asks axios for a
    stream with a 60000 ms timeout and pipes it into the file; a rejected
    request (bad status, timeout, no connection) rejects the download with
    the same error and nothing is piped. *)
Lemma download_bounded (w : World) (u : jsval) (filepath : string) :
  run w (App.downloadImage u filepath) [] = run w (Typed.downloadImage u filepath) []
  /\ match run w (App.downloadImage u filepath) [] with
     | ([(c, Failed e)], out) =>
         c = stream_request u (Some 60000) /\ out = Some (Rejected e)
     | ([(c, Pending)], out) =>
         c = stream_request u (Some 60000) /\ out = None
     | ([(c, Done (RBytes body)); (sink, written)], out) =>
         c = stream_request u (Some 60000) /\ sink = Pipe body filepath
         /\ out = match written with
                  | Done _ => Some (Fulfilled tt)
                  | Failed e => Some (Rejected e)
                  | Pending => None
                  end
     | _ => False
     end.
Proof.
  split; [reflexivity |].
  unfold App.downloadImage; simpl.
  ask_world; [| split; reflexivity | split; reflexivity].
  ask_world; repeat split; try reflexivity.
  match goal with |- Some (Fulfilled ?x) = _ => destruct x; reflexivity end.
Qed.

(** C6 (the port-3000 server).  Its [downloadImage] passes no [timeout] to
    axios: the request it makes is the stream request without a limit, for
    every URL and every world. *)
Theorem basic_download_unbounded (w : World) (u : jsval) (filepath : string) :
  fst <$> head (trace w (Basic.downloadImage u filepath)) = Some (stream_request u None)
  /\ stream_request u None <> stream_request u (Some 60000).
Proof.
  split.
  - unfold trace, Basic.downloadImage; simpl.
    ask_world; try reflexivity.
    ask_world; reflexivity.
  - unfold stream_request. intros Heq. discriminate Heq.
Qed.

(** ** Rate limiting *)

(** The limiter is configured with a window of 15 minutes and 100 requests
    and with a string as its message; counting requests per address and
    answering the excess ones is done by the express-rate-limit dependency. *)
Lemma limiter_options :
  Typed.windowMs Typed.limiter = 900000
  /\ Typed.max Typed.limiter = 100
  /\ Typed.message Typed.limiter = "Too many requests from this IP, please try again later.".
Proof. repeat split; reflexivity. Qed.

(** ** Two requests at once *)

(** One after the other, each request is answered from its own images. *)
Lemma sequential_requests_are_isolated
    (sharp_resize : Z -> Z -> bytes -> bytes) (model : jsval -> prediction)
    (web : jsval -> option bytes) (human0 garment0 human1 garment1 : bytes) :
  threads (schedule sharp_resize model web [0; 0; 0; 0; 0; 0; 1; 1; 1; 1; 1; 1]%nat
             (two_uploads human0 garment0 human1 garment1))
  = [Ret (answer_for sharp_resize model human0 garment0);
     Ret (answer_for sharp_resize model human1 garment1)].
Proof. vm_compute. reflexivity. Qed.

(** C8 (the shared scratch files).  Request 0 resizes its two images,
    request 1 then resizes its own into the same two files, and request 0
    reads the files back: it dispatches, and is answered from, the images
    of request 1. *)
Theorem concurrent_requests_share_scratch_files
    (sharp_resize : Z -> Z -> bytes -> bytes) (model : jsval -> prediction)
    (web : jsval -> option bytes) (human0 garment0 human1 garment1 : bytes) :
  let m := schedule sharp_resize model web [0; 0; 0; 1; 1; 1; 0; 0; 0]%nat
             (two_uploads human0 garment0 human1 garment1) in
  last (performed m)
  = Some (0%nat, Predict (AppClient 0) "/tryon"
                   (tryon_payload (sharp_resize 400 600 human1)
                      (sharp_resize 400 600 garment1) default_description))
  /\ threads m !! 0%nat = Some (Ret (answer_for sharp_resize model human1 garment1)).
Proof. vm_compute. split; reflexivity. Qed.

(** ** The garment description *)

(** What is sent as third argument: nothing before the dispatch step, and
    then [||] on the multipart routes, the destructuring default on the
    JSON routes. *)
Lemma description_dispatched `{Node} (w : World) (r : route) (req : request) :
  descriptions (trace w (handler r req))
  = if reaches_dispatch (trace w (handler r req))
    then [if multipart r
          then js_or (garmentDescription (body req)) default_description
          else js_default (garmentDescription (body req)) default_description]
    else [].
Proof.
  unfold trace.
  destruct r; simpl;
    unfold App.tryon, App.tryon_base64, Typed.tryon, Typed.tryon_base64,
      Typed.tryon_media, Typed.tryon_url, Basic.tryon; simpl.
  all: walk.
  all: reflexivity.
Qed.

(** X14. On every try-on route, once the dispatch step is reached the
    description sent to the model is the supplied string itself when it is
    a non-empty string, and "cloth fitting the person shape" when the field
    is absent; nothing is sent before that step. *)
Theorem description_supplied_or_absent `{Node} (w : World) (r : route) (req : request) :
  (forall s, garmentDescription (body req) = JStr s -> s <> EmptyString ->
     descriptions (trace w (handler r req))
     = if reaches_dispatch (trace w (handler r req)) then [JStr s] else [])
  /\ (garmentDescription (body req) = JUndefined ->
      descriptions (trace w (handler r req))
      = if reaches_dispatch (trace w (handler r req))
        then [JStr "cloth fitting the person shape"] else []).
Proof.
  pose proof (description_dispatched w r req) as Hsent.
  split.
  - intros s Hs Hne. rewrite Hs in Hsent.
    assert (Hor : js_or (JStr s) default_description = JStr s).
    { unfold js_or; simpl. destruct (String.eqb s EmptyString) eqn:E; [|reflexivity].
      apply String.eqb_eq in E. contradiction. }
    rewrite Hor in Hsent. unfold js_default in Hsent.
    destruct (multipart r); exact Hsent.
  - intros Habsent. rewrite Habsent in Hsent.
    unfold js_or, js_default in Hsent; simpl in Hsent.
    destruct (multipart r); exact Hsent.
Qed.

Lemma description_supplied_or_absent_witness :
  descriptions (trace obliging (handler TypedTryonBase64
                                  (base64_request (JStr "up") (JStr "red linen shirt"))))
  = [JStr "red linen shirt"]
  /\ descriptions (trace obliging (handler AppTryon (upload_request JUndefined JUndefined)))
     = [JStr "cloth fitting the person shape"].
Proof.
  split.
  - exact (proj1 (description_supplied_or_absent obliging TypedTryonBase64
                    (base64_request (JStr "up") (JStr "red linen shirt")))
             "red linen shirt" eq_refl ltac:(discriminate)).
  - exact (proj2 (description_supplied_or_absent obliging AppTryon
                    (upload_request JUndefined JUndefined)) eq_refl).
Defined.

(** C9 (the empty description on the JSON routes).  POST /tryon/base64
    with two decodable images and an empty [garmentDescription]: whatever
    the platform and the world, what is dispatched carries the empty
    string, not the default; when every call succeeds, exactly one
    [predict] is made and its description is the empty string (on both
    servers), whereas POST /tryon sends the default for the same field. *)
Theorem empty_description_not_defaulted :
  (forall (node : Node) (w : World),
      descriptions (trace w (@handler node TypedTryonBase64
                               (base64_request (JStr "up") (JStr EmptyString))))
      = if reaches_dispatch (trace w (@handler node TypedTryonBase64
                                        (base64_request (JStr "up") (JStr EmptyString))))
        then [JStr EmptyString] else [])
  /\ descriptions (trace obliging (handler TypedTryonBase64
                                     (base64_request (JStr "up") (JStr EmptyString))))
     = [JStr EmptyString]
  /\ descriptions (trace obliging (handler AppTryonBase64
                                     (base64_request (JStr "up") (JStr EmptyString))))
     = [JStr EmptyString]
  /\ descriptions (trace obliging (handler TypedTryon
                                     (upload_request (JStr "up") (JStr EmptyString))))
     = [JStr "cloth fitting the person shape"].
Proof.
  split; [| repeat split; reflexivity].
  intros node w.
  exact (@description_dispatched node w TypedTryonBase64
           (base64_request (JStr "up") (JStr EmptyString))).
Qed.
(** ** Source selection on the multipart routes *)



Example only_the_garment_is_downloaded :
  downloads (trace obliging (handler TypedTryon both_sources_request))
  = [JStr "https://img.example/garment.jpg"]
  /\ resize_inputs (trace obliging (handler TypedTryon both_sources_request))
     = [Some "uploads/3f9a"; Some "/srv/try-on/uploads/garmentImage.jpg"].
Proof. split; reflexivity. Qed.
(** * Further properties of the handlers *)

(** ** The model connection *)

(** X1. A handler connects exactly once, to the space selected for the
    request (by [type] on the typed server, "alexff91/FitMirror" on the
    others), and every [predict] goes through the client that this
    connection returned. *)
Theorem model_selected `{Node} (w : World) (r : route) (req : request) (modelUrl : string) :
  model_of r (body_type (body req)) = Ret modelUrl ->
  client_calls (trace w (handler r req)) = [modelUrl]
  /\ Forall (uses_connected_client (trace w (handler r req))) (trace w (handler r req)).
Proof.
  unfold trace, model_of.
  destruct r; simpl;
    unfold App.tryon, App.tryon_base64, Typed.tryon, Typed.tryon_base64,
      Typed.tryon_media, Typed.tryon_url, Basic.tryon; simpl.
  all: walk.
  all: intros Hmodel'; try discriminate Hmodel'.
  all: injection Hmodel' as <-.
  all: split; [reflexivity | repeat constructor].
Qed.

Lemma model_selected_witness :
  model_of TypedTryonMedia (body_type (body (upload_request (JStr "dress") JUndefined)))
  = Ret "alexff91/FitMirror-Dress"
  /\ client_calls (trace obliging (handler TypedTryonMedia
                                     (upload_request (JStr "dress") JUndefined)))
     = ["alexff91/FitMirror-Dress"].
Proof.
  split; [reflexivity |].
  apply (model_selected obliging TypedTryonMedia (upload_request (JStr "dress") JUndefined)
           "alexff91/FitMirror-Dress").
  reflexivity.
Defined.

(** ** Answers and failures *)

(** X2. A handler's promise is rejected in one situation only: a call was
    rejected with an error whose response body is a live stream, which the
    catch clause of app.mjs and of the typed try-on routes cannot serialise
    (the port-3000 server and the check routes, which report
    [error.message], never reject).  Otherwise, when the promise settles a
    response has been sent with status 200, 400 or 500, and it stays
    pending only if the last call made never settled. *)
Theorem handler_always_answers `{Node} (w : World) (ep : endpoint) (req : request) :
  match outcome w (serve ep req) with
  | Some (Fulfilled resp) =>
      (status resp = 200 \/ status resp = 400 \/ status resp = 500)
      /\ sent resp <> NotSent
  | Some (Rejected thrown) =>
      thrown = circular_structure
      /\ exists c e, last (trace w (serve ep req)) = Some (c, Failed e)
                     /\ reported ep e = LiveStream
  | None => exists c, last (trace w (serve ep req)) = Some (c, Pending)
  end.
Proof.
  unfold trace, outcome.
  destruct ep as [r| |]; [destruct r | |]; simpl;
    unfold App.tryon, App.tryon_base64, Typed.tryon, Typed.tryon_base64,
      Typed.tryon_media, Typed.tryon_url, Basic.tryon,
      Typed.check_wardrobe, Typed.check_person; simpl.
  all: walk.
  all: simpl;
    try match goal with
        | |- context [caught ?p] => unfold caught; destruct p eqn:?
        end.
  all: first [ eexists; reflexivity
             | split; [auto | discriminate]
             | split; [reflexivity | do 2 eexists; split; [reflexivity | assumption]]
             | split; [auto | discriminate] ].
Qed.

(** X3. A rejected call is the last call of the handler, whichever call it
    is, and goes straight to the catch clause: the answer is 500 with that
    error under "error", except that an error whose response body is a
    live stream makes the catch clause itself throw, so that the handler's
    promise is rejected and nothing is answered. *)
Theorem rejected_call_is_final `{Node} (w : World) (ep : endpoint) (req : request)
    (c : call) (e : error) :
  In (c, Failed e) (trace w (serve ep req)) ->
  last (trace w (serve ep req)) = Some (c, Failed e)
  /\ outcome w (serve ep req) =
     match reported ep e with
     | Data j => Some (Fulfilled (failure_response j))
     | LiveStream => Some (Rejected circular_structure)
     end.
Proof.
  unfold trace, outcome.
  destruct ep as [r| |]; [destruct r | |]; simpl;
    unfold App.tryon, App.tryon_base64, Typed.tryon, Typed.tryon_base64,
      Typed.tryon_media, Typed.tryon_url, Basic.tryon,
      Typed.check_wardrobe, Typed.check_person; simpl.
  all: walk.
  all: intros Hin; find_predict Hin.
  all: injection Hin as <- <-; split; reflexivity.
Qed.

Lemma rejected_call_is_final_witness :
  outcome no_model_space (serve (TryOn AppTryon) (upload_request JUndefined JUndefined))
  = Some (Fulfilled (failure_response (JObj [("detail", JStr "Not Found")]))).
Proof.
  apply (rejected_call_is_final no_model_space (TryOn AppTryon)
           (upload_request JUndefined JUndefined) (Client "alexff91/FitMirror")
           {| err_message := JStr "Space metadata could not be loaded.";
              err_response := Some (Data (JObj [("detail", JStr "Not Found")])) |}).
  simpl. left. reflexivity.
Defined.

(** A download refused with an HTTP status: nothing is answered. *)
Example refused_download_is_not_answered :
  outcome refusing_downloads (handler AppTryon (url_request JUndefined))
  = Some (Rejected circular_structure)
  /\ trace refusing_downloads (handler AppTryon (url_request JUndefined))
     = [(Client "alexff91/FitMirror", Done (RClient (AppClient 0)));
        (stream_request (JStr "https://img.example/human.jpg") (Some 60000),
         Failed {| err_message := JStr "Request failed with status code 404";
                   err_response := Some LiveStream |})]
  /\ outcome refusing_downloads (handler BasicTryon (url_request JUndefined))
     = Some (Fulfilled (failure_response (JStr "Request failed with status code 404"))).
Proof. repeat split; reflexivity. Qed.

(** X4. On the three POST /tryon handlers a fulfilled [predict] is the
    last call, and its [data] is relayed as it is under "result" with
    status 200. *)
Theorem upload_result_inline `{Node} (w : World) (r : route) (req : request)
    (c : app_client) (endpoint : string) (payload : jsval) (result : prediction) :
  inline r = true ->
  In (Predict c endpoint payload, Done (RPrediction result)) (trace w (handler r req)) ->
  last (trace w (handler r req)) = Some (Predict c endpoint payload, Done (RPrediction result))
  /\ outcome w (handler r req)
     = Some (Fulfilled {| status := 200; headers := [];
                          sent := Json (JObj [("result", JArr (data result))]) |}).
Proof.
  unfold trace, outcome. intros Hr.
  destruct r; try discriminate Hr; clear Hr; simpl;
    unfold App.tryon, Typed.tryon, Basic.tryon; simpl.
  all: walk.
  all: intros Hin; find_predict Hin.
  all: injection Hin as <- <- <- <-; split; reflexivity.
Qed.

Lemma upload_result_inline_witness :
  outcome obliging (handler BasicTryon (upload_request JUndefined JUndefined))
  = Some (Fulfilled {| status := 200; headers := [];
                       sent := Json (JObj [("result", JArr (data sample_prediction))]) |}).
Proof.
  apply (upload_result_inline obliging BasicTryon (upload_request JUndefined JUndefined)
           (AppClient 0) "/tryon" (tryon_payload png png default_description)
           sample_prediction).
  - reflexivity.
  - simpl. do 5 right. left. reflexivity.
Defined.
(** ** The two check routes *)

(** X5. POST /check-wardrobe without a file makes no call and answers 400.
    With a file it resizes that file to a 224 x 224 buffer and classifies
    exactly that buffer with the BEiT model; the classification is
    answered as it is, a failure of either call is answered 500 with
    [error.message]. *)
Theorem check_wardrobe_pipeline (w : World) (req : request) :
  match file req, run w (Typed.check_wardrobe req) [] with
  | None, (h, out) =>
      h = [] /\ out = Some (Fulfilled (bad_request "Garment image is required."))
  | Some f, ([(c, Failed e)], out) =>
      c = SharpToBuffer (path f) 224 224
      /\ out = Some (Fulfilled (failure_response (err_message e)))
  | Some f, ([(c, Pending)], out) =>
      c = SharpToBuffer (path f) 224 224 /\ out = None
  | Some f, ([(c, Done (RBytes processedImage)); (inference, answered)], out) =>
      c = SharpToBuffer (path f) 224 224
      /\ inference = HfImageClassification "microsoft/beit-base-patch16-224-pt22k-ft22k"
                       processedImage
      /\ out = match answered with
               | Done (RJs result) =>
                   Some (Fulfilled {| status := 200; headers := []; sent := Json result |})
               | Done _ => None
               | Failed e => Some (Fulfilled (failure_response (err_message e)))
               | Pending => None
               end
  | Some f, _ => False
  end.
Proof.
  unfold Typed.check_wardrobe.
  destruct (file req) as [f|]; simpl; [| split; reflexivity].
  ask_world; [| split; reflexivity | split; reflexivity].
  ask_world; repeat split; reflexivity.
Qed.

(** X6. POST /check-person without a file makes no call and answers 400.
    With a file it resizes that file to a 512 x 512 buffer and segments
    exactly that buffer with the SegFormer model; the segmentation is
    answered as it is, a failure of either call is answered 500 with
    [error.message]. *)
Theorem check_person_pipeline (w : World) (req : request) :
  match file req, run w (Typed.check_person req) [] with
  | None, (h, out) =>
      h = [] /\ out = Some (Fulfilled (bad_request "Image is required."))
  | Some f, ([(c, Failed e)], out) =>
      c = SharpToBuffer (path f) 512 512
      /\ out = Some (Fulfilled (failure_response (err_message e)))
  | Some f, ([(c, Pending)], out) =>
      c = SharpToBuffer (path f) 512 512 /\ out = None
  | Some f, ([(c, Done (RBytes processedImage)); (inference, answered)], out) =>
      c = SharpToBuffer (path f) 512 512
      /\ inference = HfSemanticSegmentation "nvidia/segformer-b0-finetuned-ade-512-512"
                       processedImage
      /\ out = match answered with
               | Done (RJs result) =>
                   Some (Fulfilled {| status := 200; headers := []; sent := Json result |})
               | Done _ => None
               | Failed e => Some (Fulfilled (failure_response (err_message e)))
               | Pending => None
               end
  | Some f, _ => False
  end.
Proof.
  unfold Typed.check_person.
  destruct (file req) as [f|]; simpl; [| split; reflexivity].
  ask_world; [| split; reflexivity | split; reflexivity].
  ask_world; repeat split; reflexivity.
Qed.

(** ** The JSON routes *)



(** X8. On POST /tryon/base64 both strings are decoded before anything is
    written: if either decoding throws, no file is written, nothing is
    resized and nothing is dispatched.  Otherwise what is written are the
    decoded human and garment bytes, in this order, to
    humanImage_from_base64.jpg and garmentImage_from_base64.jpg, and
    nothing is resized before both are written; whenever the handler
    reaches its dispatch step, and whenever it answers 200, both files have
    been written with the decoded bytes and these two files are what was
    resized. *)
Theorem base64_route_writes_then_resizes `{Node} (w : World) (r : route) (req : request) :
  is_base64_route r = true ->
  let h := trace w (handler r req) in
  let humanImagePath := path_join [__dirname; "uploads"; "humanImage_from_base64.jpg"] in
  let garmentImagePath := path_join [__dirname; "uploads"; "garmentImage_from_base64.jpg"] in
  match Buffer_from_base64 (humanImageBase64 (body req)),
        Buffer_from_base64 (garmentImageBase64 (body req)) with
  | inl humanImageBuffer, inl garmentImageBuffer =>
      writes h `prefix_of` [(humanImagePath, humanImageBuffer);
                            (garmentImagePath, garmentImageBuffer)]
      /\ resize_inputs h `prefix_of` [Some humanImagePath; Some garmentImagePath]
      /\ (resize_inputs h = []
          \/ writes h = [(humanImagePath, humanImageBuffer);
                         (garmentImagePath, garmentImageBuffer)])
      /\ (reaches_dispatch h = true \/ status_of (outcome w (handler r req)) = Some 200 ->
          writes h = [(humanImagePath, humanImageBuffer);
                      (garmentImagePath, garmentImageBuffer)]
          /\ resize_inputs h = [Some humanImagePath; Some garmentImagePath])
  | _, _ =>
      writes h = [] /\ resize_inputs h = [] /\ predict_calls h = []
      /\ status_of (outcome w (handler r req)) <> Some 200
  end.
Proof.
  intros Hr. unfold trace, outcome.
  destruct r; try discriminate Hr; clear Hr; simpl;
    unfold App.tryon_base64, Typed.tryon_base64; simpl.
  all: walk.
  all: repeat match goal with
         | E : Buffer_from_base64 _ = _ |- _ => rewrite E; clear E
         | |- context [match Buffer_from_base64 ?v with _ => _ end] =>
             destruct (Buffer_from_base64 v)
         end.
  all: unfold reaches_dispatch; simpl.
  all: repeat match goal with
         | |- _ /\ _ => split
         | |- _ `prefix_of` _ => eexists; reflexivity
         | |- _ \/ _ -> _ => intros [Hgoal | Hgoal]
         | |- _ <> _ => intros Hgoal
         | Hgoal : context [caught ?p] |- _ => unfold caught in Hgoal; destruct p
         | Hgoal : _ |- _ => discriminate Hgoal
         | |- _ = _ => reflexivity
         | |- _ \/ _ => first [left; reflexivity | right; reflexivity]
         end.
Qed.

Lemma base64_route_writes_then_resizes_witness :
  status_of (outcome obliging (handler AppTryonBase64 (base64_request JUndefined JUndefined)))
  = Some 200
  /\ writes (trace obliging (handler AppTryonBase64 (base64_request JUndefined JUndefined)))
     = [(path_join [__dirname; "uploads"; "humanImage_from_base64.jpg"],
         octets (sextets pixel_base64));
        (path_join [__dirname; "uploads"; "garmentImage_from_base64.jpg"],
         octets (sextets pixel_base64))]
  /\ resize_inputs (trace obliging (handler AppTryonBase64
                                      (base64_request JUndefined JUndefined)))
     = [Some (path_join [__dirname; "uploads"; "humanImage_from_base64.jpg"]);
        Some (path_join [__dirname; "uploads"; "garmentImage_from_base64.jpg"])].
Proof.
  split; [reflexivity |].
  refine (proj2 (proj2 (proj2
            (base64_route_writes_then_resizes obliging AppTryonBase64
               (base64_request JUndefined JUndefined) eq_refl))) _).
  right. reflexivity.
Defined.
(** ** A request served alone *)

Lemma append_cancel_l (prefix a b : string) :
  (prefix +:+ a = prefix +:+ b) -> a = b.
Proof.
  induction prefix as [|c prefix IH]; simpl; intros Heq; [exact Heq |].
  injection Heq as Heq. auto.
Qed.

Lemma resized_paths_differ `{Node} :
  path_join [__dirname; "uploads"; "garmentImage_resized.jpg"]
  <> path_join [__dirname; "uploads"; "humanImage_resized.jpg"].
Proof.
  unfold path_join. simpl. intros Heq.
  apply append_cancel_l in Heq. discriminate Heq.
Qed.

(** X9. A multipart /tryon request that runs alone, with both uploads on
    the disk, is answered from its own two images resized to 400 x 600,
    provided the garment upload is not stored under the name of the resized
    human image (which the handler overwrites before it reads the garment). *)
Theorem lone_upload_answered_from_own_images `{Node}
    (sharp_resize : Z -> Z -> bytes -> bytes) (model : jsval -> prediction)
    (web : jsval -> option bytes) (d : gmap string bytes)
    (humanPath garmentPath : string) (human garment : bytes) :
  d !! humanPath = Some human ->
  d !! garmentPath = Some garment ->
  garmentPath <> path_join [__dirname; "uploads"; "humanImage_resized.jpg"] ->
  threads (schedule sharp_resize model web [0; 0; 0; 0; 0; 0]%nat
             {| disk := d;
                threads := [App.tryon (upload_of humanPath garmentPath)];
                performed := [] |})
  = [Ret (answer_for sharp_resize model human garment)].
Proof.
  intros Hhuman Hgarment Hfresh.
  pose proof resized_paths_differ as Hdiffer.
  unfold schedule, App.tryon, upload_of. simpl.
  unfold step at 6. simpl.
  unfold step at 5. simpl. rewrite Hhuman.
  unfold step at 4. simpl.
  rewrite lookup_insert_ne by congruence. rewrite Hgarment.
  unfold step at 3. simpl.
  rewrite lookup_insert_ne by congruence. rewrite lookup_insert_eq.
  unfold step at 2. simpl. rewrite lookup_insert_eq.
  unfold step at 1. simpl.
  reflexivity.
Qed.

Lemma lone_upload_answered_from_own_images_witness :
  threads (schedule (fun _ _ image => image) (fun _ => sample_prediction) (fun _ => None)
             [0; 0; 0; 0; 0; 0]%nat
             {| disk := disk (two_uploads png [x01] [x02] [x03]);
                threads := [App.tryon (upload_of "uploads/0a1f" "uploads/0b2e")];
                performed := [] |})
  = [Ret (answer_for (fun _ _ image => image) (fun _ => sample_prediction) png [x01])].
Proof.
  apply (lone_upload_answered_from_own_images
           (fun _ _ image => image) (fun _ => sample_prediction) (fun _ => None)
           (disk (two_uploads png [x01] [x02] [x03]))
           "uploads/0a1f" "uploads/0b2e" png [x01]).
  - vm_compute. reflexivity.
  - vm_compute. reflexivity.
  - intros Heq. vm_compute in Heq. discriminate Heq.
Defined.

(** ** Falling back on the URLs *)



(** ** Witnesses *)

Lemma json_routes_reject_missing_input_witness :
  match trace obliging (handler TypedTryonUrl (base64_request (JStr "up") JUndefined)) with
  | [] => supports_type TypedTryonUrl = true
  | [(Client _, Done _)] =>
      exists message,
        outcome obliging (handler TypedTryonUrl (base64_request (JStr "up") JUndefined))
        = Some (Fulfilled {| status := 400; headers := [];
                             sent := Json (JObj [("error", JStr message)]) |})
  | [(Client _, _)] => True
  | _ => False
  end.
Proof.
  apply (json_routes_reject_missing_input obliging TypedTryonUrl
           (base64_request (JStr "up") JUndefined)).
  reflexivity.
Defined.
(** ** What a status tells *)

(** X11. A 400 is only ever sent for a missing input: by a JSON try-on
    route without one of its two strings, or by a check route without a
    file, and then at most the client connection has been made. *)
Theorem bad_request_means_missing_input `{Node} (w : World) (ep : endpoint) (req : request) :
  status_of (outcome w (serve ep req)) = Some 400 ->
  required_inputs_present ep req = false
  /\ length (trace w (serve ep req)) = length (client_calls (trace w (serve ep req))).
Proof.
  unfold trace, outcome.
  destruct ep as [r| |]; [destruct r | |]; simpl;
    unfold App.tryon, App.tryon_base64, Typed.tryon, Typed.tryon_base64,
      Typed.tryon_media, Typed.tryon_url, Basic.tryon,
      Typed.check_wardrobe, Typed.check_person; simpl.
  all: walk.
  all: simpl; intros Hstatus;
    try match type of Hstatus with
        | context [caught ?p] => unfold caught in Hstatus; destruct p
        end;
    try discriminate Hstatus.
  all: split; [| reflexivity].
  all: repeat match goal with
         | E : negb ?a || negb ?b = true |- _ =>
             destruct a, b; try discriminate E; clear E
         end; reflexivity.
Qed.

Lemma bad_request_means_missing_input_witness :
  required_inputs_present CheckPerson (upload_request JUndefined JUndefined) = false.
Proof.
  apply (bad_request_means_missing_input obliging CheckPerson
           (upload_request JUndefined JUndefined)).
  reflexivity.
Defined.

(** X12. A try-on handler answers 200 only after a fulfilled [predict]
    (so after both images were resized and read back). *)
Theorem success_means_predicted `{Node} (w : World) (r : route) (req : request) :
  status_of (outcome w (handler r req)) = Some 200 ->
  reaches_dispatch (trace w (handler r req)) = true
  /\ exists c endpoint payload result,
       In (Predict c endpoint payload, Done (RPrediction result)) (trace w (handler r req)).
Proof.
  unfold trace, outcome.
  destruct r; simpl;
    unfold App.tryon, App.tryon_base64, Typed.tryon, Typed.tryon_base64,
      Typed.tryon_media, Typed.tryon_url, Basic.tryon; simpl.
  all: walk.
  all: simpl; intros Hstatus;
    try match type of Hstatus with
        | context [caught ?p] => unfold caught in Hstatus; destruct p
        end;
    try discriminate Hstatus.
  all: split; [reflexivity |].
  all: do 4 eexists; simpl; repeat (first [left; reflexivity | right]).
Qed.

Lemma success_means_predicted_witness :
  reaches_dispatch (trace obliging (handler TypedTryonUrl (url_request (JStr "up")))) = true.
Proof.
  apply (success_means_predicted obliging TypedTryonUrl (url_request (JStr "up"))).
  reflexivity.
Defined.
